(** * Internet Usage Tracker: session tracking and sync reconciliation

    A shallow embedding of the background script (session tracker, sync
    scheduling, message handlers), of [SyncManager] and of the [Utils]
    helpers they call, followed by the properties of the specification
    that are settled on it.

    Conventions of the embedding:
    - timestamps and durations are JavaScript integers, modelled as [Z];
    - a JavaScript object with optional keys is a record of [option]s;
      [None] is [undefined]/[null];
    - [TrackerState] and [browser.storage.local] form the mutable world;
      the functions of the source that read or write them are computations
      in a state monad over it;
    - every value the source obtains from the platform (the clock, the
      network, [navigator.onLine], the tab query, the URL parser, the local
      calendar) is an explicit argument of the function that reads it;
    - an event handler runs from its first statement to its last without
      another handler running in between. *)

From Stdlib Require Import ZArith String DecimalString.
From stdpp Require Import base option list gmap strings.

Local Open Scope Z_scope.

(** ** A state monad for code that threads the mutable world *)

Definition State (S A : Type) : Type := S → A * S.

Global Instance State_ret {S} : MRet (State S) := λ A a s, (a, s).
Global Instance State_bind {S} : MBind (State S) :=
  λ A B k m s, let r := m s in k r.1 r.2.

Definition get {S} : State S S := λ s, (s, s).
Definition put {S} (s : S) : State S unit := λ _, (tt, s).
Definition modify {S} (f : S → S) : State S unit := λ s, (tt, f s).
Definition when {S} (b : bool) (m : State S unit) : State S unit :=
  if b then m else mret tt.
Fixpoint for_each {S A} (f : A → State S unit) (l : list A) : State S unit :=
  match l with
  | [] => mret tt
  | x :: l => f x;; for_each f l
  end.
Definition exec {S A} (m : State S A) (s : S) : S := (m s).2.
Definition eval {S A} (m : State S A) (s : S) : A := (m s).1.

(** ** JavaScript values *)

(** Truthiness of a string: only the empty string is falsy. *)
Definition truthy (s : string) : bool := negb (String.eqb s EmptyString).

(** [o || d] on a possibly missing string. *)
Definition string_or (o : option string) (d : string) : string :=
  match o with
  | Some s => if truthy s then s else d
  | None => d
  end.

(** Template-literal rendering of an integer. *)
Definition show (z : Z) : string := NilZero.string_of_int (Z.to_int z).

(** ** Data model *)

Module Session.
Record t : Type := mk {
  url : string;
  domain : string;
  title : string;
  startTimestamp : Z;
  endTimestamp : option Z;
  durationSeconds : Z;
  tabId : Z;
  incognito : bool;
  archivedAt : option Z
}.

Definition set_title (v : string) (s : t) : t :=
  mk (url s) (domain s) v (startTimestamp s) (endTimestamp s)
     (durationSeconds s) (tabId s) (incognito s) (archivedAt s).
Definition set_endTimestamp (v : option Z) (s : t) : t :=
  mk (url s) (domain s) (title s) (startTimestamp s) v
     (durationSeconds s) (tabId s) (incognito s) (archivedAt s).
Definition set_durationSeconds (v : Z) (s : t) : t :=
  mk (url s) (domain s) (title s) (startTimestamp s) (endTimestamp s)
     v (tabId s) (incognito s) (archivedAt s).
Definition set_archivedAt (v : option Z) (s : t) : t :=
  mk (url s) (domain s) (title s) (startTimestamp s) (endTimestamp s)
     (durationSeconds s) (tabId s) (incognito s) v.

Global Instance eq_dec : EqDecision t.
Proof. solve_decision. Defined.
End Session.

Module Tab.
(** The fields of a browser tab the tracker reads. *)
Record t : Type := mk {
  id : Z;
  url : option string;
  title : option string;
  incognito : bool
}.
End Tab.

Module DeviceProfile.
Record t : Type := mk {
  type : string;
  name : string;
  browser : string;
  os : string
}.
End DeviceProfile.

Module Config.
Record t : Type := mk {
  apiEndpoint : string;
  apiKey : string;
  syncIntervalMinutes : Z;
  userId : string;
  deviceProfile : DeviceProfile.t;
  idleDetectionEnabled : bool;
  idleThresholdMinutes : Z;
  archiveRetentionDays : Z
}.



End Config.

(** [DEFAULT_CONFIG]; [os] is what [Utils.detectOS()] returned. *)
Definition DEFAULT_CONFIG (os : string) : Config.t :=
  Config.mk EmptyString EmptyString 180 EmptyString
    (DeviceProfile.mk "laptop" EmptyString "Firefox" os) false 5 30.

(** ** [browser.storage.local] *)

Module Storage.
Record t : Type := mk {
  deviceId : option string;
  config : option Config.t;
  pendingSessions : option (list Session.t);
  archive : option (list Session.t);
  failedSyncs : option (list Session.t)
}.

Definition empty : t := mk None None None None None.

Definition set_config (v : option Config.t) (s : t) : t :=
  mk (deviceId s) v (pendingSessions s) (archive s) (failedSyncs s).
Definition set_pendingSessions (v : option (list Session.t)) (s : t) : t :=
  mk (deviceId s) (config s) v (archive s) (failedSyncs s).
Definition set_archive (v : option (list Session.t)) (s : t) : t :=
  mk (deviceId s) (config s) (pendingSessions s) v (failedSyncs s).
Definition set_failedSyncs (v : option (list Session.t)) (s : t) : t :=
  mk (deviceId s) (config s) (pendingSessions s) (archive s) v.
End Storage.

(** ** The network *)

Module Net.
(** One row of the [sessions] table as [sendToApi] posts it. *)
Record Row : Type := mkRow {
  row_device_id : option string;
  row_user_id : string;
  row_url : string;
  row_domain : string;
  row_title : string;
  row_start_timestamp : Z;
  row_end_timestamp : option Z;
  row_duration_seconds : Z;
  row_tab_id : Z;
  row_incognito : bool;
  row_device_profile : DeviceProfile.t;
  row_synced_at : string
}.

Inductive Body : Type :=
| CheckUsername (check_username : string)
| Rows (rows : list Row).

Record Request : Type := mkRequest {
  req_url : string;
  req_apikey : string;
  req_body : Body
}.

(** What the code reads of an HTTP response.  [json] is [inr b] when the
    body parses to a value of truthiness [b], [inl m] when parsing throws
    an error with message [m]. *)
Record Response : Type := mkResponse {
  ok : bool;
  status : Z;
  text : string;
  json : string + bool
}.

(** [await fetch(...)]: rejected with an error message, or a response. *)
Inductive Outcome : Type :=
| Rejects (message : string)
| Responds (r : Response).
End Net.

(** ** utils.js *)

Module Utils.
(** [extractDomain(url)]; [hostname url] is [new URL(url).hostname], [None]
    when the constructor throws. *)
Definition extractDomain (hostname : string → option string) (url : string) : string :=
  match hostname url with
  | Some h => h
  | None => url
  end.

Definition excludedProtocols : list string :=
  ["about:"; "moz-extension:"; "chrome:"; "file:"; "data:"; "javascript:"]%string.

(** [isTrackableUrl(url)]; [String.prefix p u] is [u.startsWith(p)]. *)
Definition isTrackableUrl (url : option string) : bool :=
  match url with
  | None => false
  | Some u =>
      if negb (truthy u) then false
      else negb (existsb (λ protocol, String.prefix protocol u) excludedProtocols)
  end.
End Utils.

(** ** SyncManager *)

Module SyncManager.
Record Validation : Type := mkValidation {
  valid : bool;
  validation_error : option string
}.

(** The result object of [sync]; a key the source leaves out is [None]. *)
Record Result : Type := mkResult {
  success : bool;
  synced : option nat;
  archived : option nat;
  queued : option nat;
  error : option string
}.

Record Payload : Type := mkPayload {
  device_id : option string;
  device_profile : DeviceProfile.t;
  user_id : string;
  sessions : list Session.t;
  sync_timestamp : Z
}.

Record ApiResponse : Type := mkApiResponse {
  api_success : bool;
  api_error : option string
}.

(** What one call of [sync] reads from the platform: the network, the
    connectivity flag, and the clock at the three places that read it. *)
Record Env : Type := mkEnv {
  fetch : Net.Request → Net.Outcome;
  onLine : bool;
  nowPayload : Z;
  isoNow : string;
  nowArchive : Z;
  nowPrune : Z
}.

Definition validateUser (fetch : Net.Request → Net.Outcome)
    (userId : string) (config : Config.t) : Validation :=
  if negb (truthy (Config.apiEndpoint config)) || negb (truthy (Config.apiKey config))
  then mkValidation false (Some "API not configured"%string)
  else if negb (truthy userId)
  then mkValidation false (Some "User ID not set"%string)
  else
    let url := (Config.apiEndpoint config +:+ "/rest/v1/rpc/is_valid_user")%string in
    match fetch (Net.mkRequest url (Config.apiKey config) (Net.CheckUsername userId)) with
    | Net.Rejects message => mkValidation false (Some message)
    | Net.Responds response =>
        if negb (Net.ok response)
        then mkValidation false
               (Some ("Validation failed: " +:+ show (Net.status response))%string)
        else match Net.json response with
             | inl message => mkValidation false (Some message)
             | inr isValid =>
                 if isValid then mkValidation true None
                 else mkValidation false
                        (Some "User not authorized. Email dhondpratyay@gmail.com to request access."%string)
             end
    end.

(** [buildPayload(sessions, deviceId, config)]; the per-session objects of
    the payload carry the fields of the session that [sendToApi] copies into
    its rows, so the payload keeps the sessions themselves. *)
Definition buildPayload (now : Z) (sessions : list Session.t)
    (deviceId : option string) (config : Config.t) : Payload :=
  mkPayload deviceId (Config.deviceProfile config) (Config.userId config)
    sessions now.

(** [sendToApi(payload, config)]: [inr] is the returned object, [inl] the
    message of the error it throws. *)
Definition sendToApi (fetch : Net.Request → Net.Outcome) (iso : string)
    (payload : Payload) (config : Config.t) : string + ApiResponse :=
  let url := (Config.apiEndpoint config +:+ "/rest/v1/sessions")%string in
  let rows := (λ session,
    Net.mkRow (device_id payload) (user_id payload)
      (Session.url session) (Session.domain session) (Session.title session)
      (Session.startTimestamp session) (Session.endTimestamp session)
      (Session.durationSeconds session) (Session.tabId session)
      (Session.incognito session) (device_profile payload) iso)
    <$> sessions payload in
  match fetch (Net.mkRequest url (Config.apiKey config) (Net.Rows rows)) with
  | Net.Rejects message => inl message
  | Net.Responds response =>
      if negb (Net.ok response)
      then inl ("API error " +:+ show (Net.status response) +:+ ": "
                  +:+ Net.text response)%string
      else inr (mkApiResponse true None)
  end.

(** [archiveLocally(sessions)]; [now] is the clock value during the
    synchronous [map] that stamps the sessions. *)
Definition archiveLocally (now : Z) (sessions : list Session.t) : State Storage.t unit :=
  stored ← get;
  let archive := default [] (Storage.archive stored) in
  let archivedSessions := Session.set_archivedAt (Some now) <$> sessions in
  put (Storage.set_archive (Some (archive ++ archivedSessions)) stored).

(** [queueFailedSync(sessions)]. *)
Definition queueFailedSync (sessions : list Session.t) : State Storage.t unit :=
  stored ← get;
  let failedSyncs := default [] (Storage.failedSyncs stored) in
  let existingTimestamps : gset Z :=
    list_to_set (Session.startTimestamp <$> failedSyncs) in
  let newSessions :=
    filter (λ s, Session.startTimestamp s ∉ existingTimestamps) sessions in
  put (Storage.set_failedSyncs (Some (failedSyncs ++ newSessions)) stored).

(** [a > b] where [a] may be [undefined]: the comparison is then false. *)
Definition gt (a : option Z) (b : Z) : Prop :=
  match a with
  | Some x => b < x
  | None => False
  end.

Global Instance gt_dec a b : Decision (gt a b).
Proof. destruct a; simpl; apply _. Defined.

Definition cutoffTimestamp (now : Z) (retentionDays : Z) : Z :=
  now - retentionDays * 24 * 60 * 60.

(** The predicate of the filter in [pruneArchive]. *)
Definition retained (cutoffTimestamp : Z) (session : Session.t) : Prop :=
  gt (Session.archivedAt session) cutoffTimestamp
  ∨ Session.startTimestamp session > cutoffTimestamp.

Global Instance retained_dec c s : Decision (retained c s).
Proof. unfold retained. apply _. Defined.

(** [pruneArchive(retentionDays = 30)]; [None] is a call without the
    argument. *)
Definition pruneArchive (now : Z) (retentionDays : option Z) : State Storage.t unit :=
  stored ← get;
  let archive := default [] (Storage.archive stored) in
  let cutoffTimestamp := cutoffTimestamp now (default 30 retentionDays) in
  let prunedArchive := filter (retained cutoffTimestamp) archive in
  let removed := (length archive - length prunedArchive)%nat in
  when (bool_decide (0 < removed)%nat)
    (put (Storage.set_archive (Some prunedArchive) stored)).

(** [sync(sessions, deviceId, config)]. *)
Definition sync (env : Env) (sessions : list Session.t)
    (deviceId : option string) (config : Config.t) : State Storage.t Result :=
  if bool_decide (length sessions = 0%nat)
  then mret (mkResult true (Some 0%nat) None None None)
  else if negb (truthy (Config.apiEndpoint config)) || negb (truthy (Config.apiKey config))
  then
    archiveLocally (nowArchive env) sessions;;
    mret (mkResult true (Some 0%nat) (Some (length sessions)) None None)
  else
    let validation := validateUser (fetch env) (Config.userId config) config in
    if negb (valid validation)
    then
      archiveLocally (nowArchive env) sessions;;
      mret (mkResult false None (Some (length sessions)) None
              (validation_error validation))
    else if negb (onLine env)
    then
      queueFailedSync sessions;;
      mret (mkResult false None None (Some (length sessions)) (Some "offline"%string))
    else
      let payload := buildPayload (nowPayload env) sessions deviceId config in
      let attempt : string + unit :=
        match sendToApi (fetch env) (isoNow env) payload config with
        | inl message => inl message
        | inr response =>
            if api_success response then inr tt
            else inl (string_or (api_error response) "Unknown error")
        end in
      match attempt with
      | inr _ =>
          archiveLocally (nowArchive env) sessions;;
          modify (Storage.set_failedSyncs None);;
          pruneArchive (nowPrune env) (Some (Config.archiveRetentionDays config));;
          mret (mkResult true (Some (length sessions)) None None None)
      | inl message =>
          queueFailedSync sessions;;
          mret (mkResult false None None (Some (length sessions)) (Some message))
      end.
End SyncManager.

(** ** The background script *)

Module TrackerState.
Record t : Type := mk {
  currentSession : option Session.t;
  deviceId : option string;
  config : Config.t;
  isIdle : bool;
  idleThresholdSeconds : Z;
  pendingSessions : list Session.t;
  initialized : bool
}.

Definition set_currentSession (v : option Session.t) (s : t) : t :=
  mk v (deviceId s) (config s) (isIdle s) (idleThresholdSeconds s)
     (pendingSessions s) (initialized s).
Definition set_config (v : Config.t) (s : t) : t :=
  mk (currentSession s) (deviceId s) v (isIdle s) (idleThresholdSeconds s)
     (pendingSessions s) (initialized s).
Definition set_pendingSessions (v : list Session.t) (s : t) : t :=
  mk (currentSession s) (deviceId s) (config s) (isIdle s)
     (idleThresholdSeconds s) v (initialized s).
End TrackerState.

(** The mutable world of the background script.  [TrackerState.config] is
    modelled from [loadConfig] on, which merges the stored object over
    [DEFAULT_CONFIG], so that every key is present. *)
Record World : Type := mkWorld {
  tracker : TrackerState.t;
  storage : Storage.t
}.

Definition getTracker : State World TrackerState.t := λ w, (tracker w, w).
Definition modifyTracker (f : TrackerState.t → TrackerState.t) : State World unit :=
  λ w, (tt, mkWorld (f (tracker w)) (storage w)).
Definition onStorage {A} (m : State Storage.t A) : State World A :=
  λ w, let r := m (storage w) in (r.1, mkWorld (tracker w) r.2).

(** The reply [{ success: true }] of a message handler. *)
Record Ack : Type := mkAck { ack_success : bool }.


(** What one call of [performSync] reads from the platform: the result of
    [browser.tabs.query] ([None] when it throws), the clock when the open
    session is closed and when it is reopened, and what [sync] reads. *)
Record SyncRun : Type := mkSyncRun {
  activeTabs : option (list Tab.t);
  nowClose : Z;
  syncEnv : SyncManager.Env;
  nowReopen : Z
}.

Section Background.
(** [new URL(url).hostname] of the platform. *)
Variable hostname : string → option string.

(** [savePendingSessions()]. *)
Definition savePendingSessions : State World unit :=
  ts ← getTracker;
  onStorage (modify (Storage.set_pendingSessions (Some (TrackerState.pendingSessions ts)))).

(** [endCurrentSession()]; [now] is [Utils.getCurrentTimestamp()]. *)
Definition endCurrentSession (now : Z) : State World unit :=
  ts ← getTracker;
  match TrackerState.currentSession ts with
  | None => mret tt
  | Some current =>
      let current := Session.set_endTimestamp (Some now) current in
      let current :=
        Session.set_durationSeconds (now - Session.startTimestamp current) current in
      when (bool_decide (1 ≤ Session.durationSeconds current))
        (modifyTracker (λ ts, TrackerState.set_pendingSessions
                                (TrackerState.pendingSessions ts ++ [current]) ts);;
         savePendingSessions);;
      modifyTracker (TrackerState.set_currentSession None)
  end.

(** [startSession(tab)]; [now] is the clock read by the implicit close,
    [now'] the one that stamps the new session. *)
Definition startSession (now now' : Z) (tab : Tab.t) : State World unit :=
  endCurrentSession now;;
  ts ← getTracker;
  if Config.idleDetectionEnabled (TrackerState.config ts) && TrackerState.isIdle ts
  then mret tt
  else if negb (Utils.isTrackableUrl (Tab.url tab))
  then mret tt
  else
    let url := default EmptyString (Tab.url tab) in
    modifyTracker (TrackerState.set_currentSession (Some
      (Session.mk url (Utils.extractDomain hostname url)
         (string_or (Tab.title tab) "Untitled")
         now' None 0 (Tab.id tab) (Tab.incognito tab) None))).

(** [updateCurrentSession(tab)]. *)
Definition updateCurrentSession (now now' : Z) (tab : Tab.t) : State World unit :=
  ts ← getTracker;
  match TrackerState.currentSession ts with
  | None => startSession now now' tab
  | Some current =>
      if bool_decide (Some (Session.url current) ≠ Tab.url tab)
      then endCurrentSession now;; startSession now now' tab
      else
        match Tab.title tab with
        | Some title =>
            when (truthy title && bool_decide (Session.title current ≠ title))
              (modifyTracker (TrackerState.set_currentSession
                                (Some (Session.set_title title current))))
        | None => mret tt
        end
  end.

(** [performSync()]. *)
Definition performSync (run : SyncRun) : State World SyncManager.Result :=
  ts ← getTracker;
  let hadActiveSession := bool_decide (TrackerState.currentSession ts ≠ None) in
  let activeTabInfo : option Tab.t :=
    if hadActiveSession then
      match activeTabs run with
      | Some (tab :: _) => Some tab
      | _ => None
      end
    else None in
  when hadActiveSession (endCurrentSession (nowClose run));;
  ts ← getTracker;
  result ← onStorage (SyncManager.sync (syncEnv run)
                        (TrackerState.pendingSessions ts)
                        (TrackerState.deviceId ts)
                        (TrackerState.config ts));
  when (SyncManager.success result)
    (modifyTracker (TrackerState.set_pendingSessions []);;
     savePendingSessions);;
  match activeTabInfo with
  | Some tab =>
      when (hadActiveSession && Utils.isTrackableUrl (Tab.url tab))
        (startSession (nowReopen run) (nowReopen run) tab)
  | None => mret tt
  end;;
  mret result.


(** The ['clearData'] case of the message listener. *)
Definition clearData : State World Ack :=
  modifyTracker (TrackerState.set_pendingSessions []);;
  savePendingSessions;;
  onStorage (modify (λ st, Storage.set_failedSyncs None (Storage.set_archive None st)));;
  mret (mkAck true).




(** A call of one of the three session operations, with the clock values
    it reads. *)
Inductive Call : Type :=
| CallStart (now now' : Z) (tab : Tab.t)
| CallEnd (now : Z)
| CallUpdate (now now' : Z) (tab : Tab.t).

Definition call (c : Call) : State World unit :=
  match c with
  | CallStart now now' tab => startSession now now' tab
  | CallEnd now => endCurrentSession now
  | CallUpdate now now' tab => updateCurrentSession now now' tab
  end.

Definition calls (cs : list Call) : State World unit := for_each call cs.
End Background.

(** ** Vocabulary of the specification *)

Abbreviation pendingOf w := (TrackerState.pendingSessions (tracker w)).
Abbreviation currentOf w := (TrackerState.currentSession (tracker w)).

Definition archiveOf (st : Storage.t) : list Session.t :=
  default [] (Storage.archive st).
Definition failedOf (st : Storage.t) : list Session.t :=
  default [] (Storage.failedSyncs st).

(** The same session: same start-timestamp, url and tab-id. *)
Definition same_session (a b : Session.t) : Prop :=
  Session.startTimestamp a = Session.startTimestamp b
  ∧ Session.url a = Session.url b
  ∧ Session.tabId a = Session.tabId b.

Global Instance same_session_dec a b : Decision (same_session a b).
Proof. unfold same_session. apply _. Defined.

(** How many entries of [l] are the session [s]. *)
Definition copies (s : Session.t) (l : list Session.t) : nat :=
  length (filter (same_session s) l).

(** A session is present in a list when an entry carries all its data; the
    archive adds the [archivedAt] stamp, which is not compared. *)
Definition unstamped (s : Session.t) : Session.t := Session.set_archivedAt None s.
Definition present (s : Session.t) (l : list Session.t) : Prop :=
  Exists (λ e, unstamped e = unstamped s) l.

Definition starts (l : list Session.t) : list Z := Session.startTimestamp <$> l.

(** No two entries with the same start-timestamp. *)
Definition distinct_starts (l : list Session.t) : Prop := NoDup (starts l).

(** No entry of [queue] has the start-timestamp of [s]. *)
Definition fresh_for (queue : list Session.t) (s : Session.t) : Prop :=
  Session.startTimestamp s ∉ starts queue.

Global Instance fresh_for_dec queue s : Decision (fresh_for queue s).
Proof. unfold fresh_for. apply _. Defined.

(** The sessions of the world that are still open. *)
Definition is_open (s : Session.t) : Prop := Session.endTimestamp s = None.
Definition is_closed (s : Session.t) : Prop := Session.endTimestamp s ≠ None.
Definition openSessions (w : World) : list Session.t :=
  filter is_open (option_list (TrackerState.currentSession (tracker w))
                    ++ TrackerState.pendingSessions (tracker w)).

(** A copy of [s] closed at [now]. *)
Definition closedAt (now : Z) (s : Session.t) : Session.t :=
  Session.set_durationSeconds (now - Session.startTimestamp s)
    (Session.set_endTimestamp (Some now) s).

(** What closing the open session adds to the pending buffer. *)
Definition closing (now : Z) (current : option Session.t) : list Session.t :=
  match current with
  | Some c => if decide (1 ≤ now - Session.startTimestamp c) then [closedAt now c] else []
  | None => []
  end.


(** *** The claims that do not hold as they are stated *)

(** "The failed-sync queue never contains two entries with the same
    start-timestamp", for one call on any batch. *)
Definition queue_always_distinct (sessions : list Session.t) (st : Storage.t) : Prop :=
  distinct_starts (failedOf st) →
  distinct_starts (failedOf (exec (SyncManager.queueFailedSync sessions) st)).

(** "[pruneArchive] removes an entry if and only if both its archivedAt and
    its startTimestamp are older than the cutoff." *)
Definition older_than (cutoff : Z) (t : option Z) : Prop :=
  ∃ x, t = Some x ∧ x < cutoff.
Definition prune_removes_iff_both_older
    (now retentionDays : Z) (st : Storage.t) (e : Session.t) : Prop :=
  let cutoff := now - retentionDays * 86400 in
  e ∈ archiveOf st →
  (e ∉ archiveOf (exec (SyncManager.pruneArchive now (Some retentionDays)) st)
   ↔ older_than cutoff (Session.archivedAt e)
     ∧ older_than cutoff (Some (Session.startTimestamp e))).

(** "Every session of the input of a failed [sync] is afterwards present in
    the archive or in the failed-sync queue." *)
Definition failed_sync_keeps_every_session (env : SyncManager.Env)
    (sessions : list Session.t) (deviceId : option string) (config : Config.t)
    (st : Storage.t) : Prop :=
  let result := eval (SyncManager.sync env sessions deviceId config) st in
  let st' := exec (SyncManager.sync env sessions deviceId config) st in
  SyncManager.success result = false →
  ∀ s, s ∈ sessions → present s (archiveOf st') ∨ present s (failedOf st').

(** The conditions of the offline scenario, at the moment [performSync]
    calls [sync]: a non-empty pending buffer, a configured endpoint and
    credential, a user identity that validates, and no connectivity. *)
Definition offline_scenario (run : SyncRun) (w : World) : Prop :=
  let config := TrackerState.config (tracker w) in
  pendingOf (exec (endCurrentSession (nowClose run)) w) ≠ []
  ∧ truthy (Config.apiEndpoint config) = true
  ∧ truthy (Config.apiKey config) = true
  ∧ SyncManager.valid
      (SyncManager.validateUser (SyncManager.fetch (syncEnv run))
         (Config.userId config) config) = true
  ∧ SyncManager.onLine (syncEnv run) = false.

(** "It returns [{success:false, error:'offline', queued: N}] with N the
    input length, the pending buffer is unchanged, and the failed-sync queue
    grows by exactly N entries." *)
Definition offline_sync_queues_all (hostname : string → option string)
    (run : SyncRun) (w : World) : Prop :=
  let sessions := pendingOf (exec (endCurrentSession (nowClose run)) w) in
  let w' := exec (performSync hostname run) w in
  offline_scenario run w →
  eval (performSync hostname run) w
  = SyncManager.mkResult false None None (Some (length sessions)) (Some "offline"%string)
  ∧ pendingOf w' = sessions
  ∧ length (failedOf (storage w'))
    = (length (failedOf (storage w)) + length sessions)%nat.



(** ** Example data *)

Module Example.
Definition visit (url domain : string) (start stop tab : Z) : Session.t :=
  Session.mk url domain "Untitled" start (Some stop) (stop - start) tab false None.

Definition news : Session.t := visit "https://news.example/" "news.example" 100 165 1.
Definition mail : Session.t := visit "https://mail.example/" "mail.example" 100 130 2.
Definition wiki : Session.t := visit "https://wiki.example/" "wiki.example" 200 260 3.

Definition profile : DeviceProfile.t := DeviceProfile.mk "laptop" "t14" "Firefox" "Linux".
Definition configured : Config.t :=
  Config.mk "https://project.supabase.co" "anon-key" 180 "alice@example.com"
    profile false 5 30.

(** The allowlist answers [true] and the insert succeeds. *)
Definition reachable (r : Net.Request) : Net.Outcome :=
  match Net.req_body r with
  | Net.CheckUsername _ => Net.Responds (Net.mkResponse true 200 "true" (inr true))
  | Net.Rows _ => Net.Responds (Net.mkResponse true 201 EmptyString (inl "Unexpected end of JSON input"%string))
  end.

(** The allowlist answers [false]. *)
Definition notAllowlisted (r : Net.Request) : Net.Outcome :=
  Net.Responds (Net.mkResponse true 200 "false" (inr false)).

Definition env (fetch : Net.Request → Net.Outcome) (onLine : bool) (now : Z) : SyncManager.Env :=
  SyncManager.mkEnv fetch onLine now "2026-01-01T00:00:00.000Z" now now.

Definition tracking (pending : list Session.t) (current : option Session.t) : TrackerState.t :=
  TrackerState.mk current (Some "3f0c9a52-device"%string) configured false 300 pending true.

Definition world (pending : list Session.t) (current : option Session.t) : World :=
  mkWorld (tracking pending current)
          (Storage.set_pendingSessions (Some pending) Storage.empty).

Definition run (fetch : Net.Request → Net.Outcome) (onLine : bool) (now : Z) : SyncRun :=
  mkSyncRun (Some []) now (env fetch onLine now) now.

Definition hostname (url : string) : option string := None.


Definition stamped (at_ : Z) (s : Session.t) : Session.t :=
  Session.set_archivedAt (Some at_) s.

(** With [now = 3000000] and a retention of 30 days the cutoff is 408000:
    [aged] was archived in that very second, [late] started long before it
    and was archived recently. *)
Definition aged : Session.t :=
  stamped 408000 (visit "https://old.example/" "old.example" 407000 407060 4).
Definition late : Session.t :=
  stamped 2999000 (visit "https://late.example/" "late.example" 1000 1060 5).

Definition tabNews : Tab.t :=
  Tab.mk 1 (Some "https://news.example/"%string) (Some "News"%string) false.
Definition tabWiki : Tab.t :=
  Tab.mk 3 (Some "https://wiki.example/"%string) None false.
Definition tabAbout : Tab.t :=
  Tab.mk 7 (Some "about:blank"%string) None false.

(** A session opened at second 100 and still open. *)
Definition reading : Session.t :=
  Session.mk "https://news.example/" "news.example" "Untitled" 100 None 0 1 false None.
End Example.

(** ** Facts about the embedding *)

(** Unfolds the monadic plumbing of a computation applied to a state. *)
Ltac run_state :=
  unfold exec, eval;
  unfold mbind, mret, State_bind, State_ret, get, put, modify;
  simpl.

(** Splits a world into its fields and evaluates the computation on it. *)
Ltac run_world w :=
  destruct w as [[current deviceId config isIdle idleThresholdSeconds pending initialized] st];
  unfold getTracker, modifyTracker, onStorage, when; run_state.

(** *** SyncManager: the archive and the failed-sync queue *)

Section SyncManagerFacts.
Implicit Types (st : Storage.t) (sessions : list Session.t) (s e : Session.t).

Lemma archiveLocally_archive now sessions st :
  archiveOf (exec (SyncManager.archiveLocally now sessions) st)
  = archiveOf st ++ (Session.set_archivedAt (Some now) <$> sessions).
Proof. reflexivity. Qed.

Lemma archiveLocally_failed now sessions st :
  failedOf (exec (SyncManager.archiveLocally now sessions) st) = failedOf st.
Proof. reflexivity. Qed.

Lemma queueFailedSync_failed sessions st :
  failedOf (exec (SyncManager.queueFailedSync sessions) st)
  = failedOf st ++ filter (fresh_for (failedOf st)) sessions.
Proof.
  unfold exec, SyncManager.queueFailedSync, failedOf; simpl.
  f_equal. apply list_filter_iff. intros s.
  unfold fresh_for, starts. by rewrite elem_of_list_to_set.
Qed.

Lemma queueFailedSync_archive sessions st :
  archiveOf (exec (SyncManager.queueFailedSync sessions) st) = archiveOf st.
Proof. reflexivity. Qed.

Lemma filter_same_length {A} (P : A → Prop) `{∀ x, Decision (P x)} (l : list A) :
  length (filter P l) = length l → filter P l = l.
Proof.
  induction l as [|x l IH]; [done|].
  rewrite filter_cons. pose proof (length_filter P l).
  destruct (decide (P x)); simpl; intros Hlen; [|lia].
  f_equal. apply IH. lia.
Qed.

Lemma filter_Forall_id {A} (P : A → Prop) `{∀ x, Decision (P x)} (l : list A) :
  Forall P l → filter P l = l.
Proof.
  induction 1 as [|x l Hx _ IH]; [done|].
  by rewrite filter_cons_True, IH.
Qed.

Lemma pruneArchive_archive now retentionDays st :
  archiveOf (exec (SyncManager.pruneArchive now retentionDays) st)
  = filter (SyncManager.retained
              (SyncManager.cutoffTimestamp now (default 30 retentionDays)))
      (archiveOf st).
Proof.
  unfold SyncManager.pruneArchive, archiveOf, when. run_state.
  set (c := SyncManager.cutoffTimestamp _ _).
  pose proof (length_filter (SyncManager.retained c) (default [] (Storage.archive st))).
  case_bool_decide; simpl; [done|].
  symmetry. apply filter_same_length. lia.
Qed.

Lemma distinct_starts_filter (P : Session.t → Prop) `{∀ x, Decision (P x)} sessions :
  distinct_starts sessions → distinct_starts (filter P sessions).
Proof.
  unfold distinct_starts, starts.
  induction sessions as [|s l IH]; [done|].
  rewrite filter_cons, fmap_cons, NoDup_cons. intros [Hs Hl].
  destruct (decide (P s)); [|by apply IH].
  rewrite fmap_cons, NoDup_cons. split; [|by apply IH].
  intros (x & Hx & [_ Hin]%list_elem_of_filter)%list_elem_of_fmap.
  apply Hs, list_elem_of_fmap. eauto.
Qed.

Lemma queueFailedSync_distinct sessions st :
  distinct_starts (failedOf st) → distinct_starts sessions →
  distinct_starts (failedOf (exec (SyncManager.queueFailedSync sessions) st)).
Proof.
  intros Hq Hs. rewrite queueFailedSync_failed.
  unfold distinct_starts, starts. rewrite fmap_app. apply NoDup_app.
  split; [done|]. split; [|by apply distinct_starts_filter].
  intros t Ht (s & -> & [Hfresh _]%list_elem_of_filter)%list_elem_of_fmap.
  by apply Hfresh.
Qed.
End SyncManagerFacts.

Section SyncFacts.
Implicit Types (st : Storage.t) (sessions : list Session.t) (s e : Session.t).

Lemma present_elem s l : s ∈ l → present s l.
Proof. intros Hs. apply Exists_exists. by exists s. Qed.

Lemma present_stamped now s l :
  Session.set_archivedAt (Some now) s ∈ l → present s l.
Proof. intros Hs. apply Exists_exists. eexists. split; [exact Hs|done]. Qed.

(** The branch of [sync] taken when the runtime reports no connectivity. *)
Lemma sync_offline env sessions deviceId config st :
  sessions ≠ [] →
  truthy (Config.apiEndpoint config) = true →
  truthy (Config.apiKey config) = true →
  SyncManager.valid
    (SyncManager.validateUser (SyncManager.fetch env) (Config.userId config) config)
  = true →
  SyncManager.onLine env = false →
  SyncManager.sync env sessions deviceId config st
  = (SyncManager.mkResult false None None (Some (length sessions))
       (Some "offline"%string),
     exec (SyncManager.queueFailedSync sessions) st).
Proof.
  intros Hne He Hk Hv Hoff. unfold SyncManager.sync.
  rewrite bool_decide_eq_false_2 by (by destruct sessions).
  rewrite He, Hk, Hv, Hoff. reflexivity.
Qed.

(** The branch of [sync] taken when the user identity does not validate:
    the input is archived and the call reports a failure. *)
Lemma sync_invalid_user env sessions deviceId config st :
  sessions ≠ [] →
  truthy (Config.apiEndpoint config) = true →
  truthy (Config.apiKey config) = true →
  SyncManager.valid
    (SyncManager.validateUser (SyncManager.fetch env) (Config.userId config) config)
  = false →
  SyncManager.sync env sessions deviceId config st
  = (SyncManager.mkResult false None (Some (length sessions)) None
       (SyncManager.validation_error
          (SyncManager.validateUser (SyncManager.fetch env) (Config.userId config) config)),
     exec (SyncManager.archiveLocally (SyncManager.nowArchive env) sessions) st).
Proof.
  intros Hne He Hk Hv. unfold SyncManager.sync.
  rewrite bool_decide_eq_false_2 by (by destruct sessions).
  rewrite He, Hk, Hv. reflexivity.
Qed.

(** Each branch of [sync] that reports a failure archives the whole input
    or merges it into the failed-sync queue. *)
Lemma sync_failure env sessions deviceId config st :
  SyncManager.success (eval (SyncManager.sync env sessions deviceId config) st) = false →
  let st' := exec (SyncManager.sync env sessions deviceId config) st in
  (archiveOf st' = archiveOf st
                   ++ (Session.set_archivedAt (Some (SyncManager.nowArchive env)) <$> sessions)
   ∧ failedOf st' = failedOf st)
  ∨ (archiveOf st' = archiveOf st
     ∧ failedOf st' = failedOf st ++ filter (fresh_for (failedOf st)) sessions).
Proof.
  unfold SyncManager.sync.
  case_bool_decide; [done|].
  destruct (negb (truthy _) || negb (truthy _)); [done|].
  destruct (negb (SyncManager.valid _)).
  { intros _. left. split; reflexivity. }
  destruct (negb (SyncManager.onLine env)).
  { intros _. right. split; [reflexivity|]. apply queueFailedSync_failed. }
  destruct (SyncManager.sendToApi _ _ _ _) as [message|response].
  { intros _. right. split; [reflexivity|]. apply queueFailedSync_failed. }
  destruct (SyncManager.api_success response); [done|].
  intros _. right. split; [reflexivity|]. apply queueFailedSync_failed.
Qed.
(** What a failed [sync] does with a session of its input. *)
Lemma sync_failure_membership env sessions deviceId config st s :
  SyncManager.success (eval (SyncManager.sync env sessions deviceId config) st) = false →
  s ∈ sessions →
  let st' := exec (SyncManager.sync env sessions deviceId config) st in
  Session.set_archivedAt (Some (SyncManager.nowArchive env)) s ∈ archiveOf st'
  ∨ s ∈ failedOf st'
  ∨ ∃ q, q ∈ failedOf st ∧ q ∈ failedOf st'
         ∧ Session.startTimestamp q = Session.startTimestamp s.
Proof.
  intros Hfail Hs st'.
  destruct (sync_failure env sessions deviceId config st Hfail) as [[Ha _]|[_ Hq]];
    fold st' in Ha || fold st' in Hq.
  - left. rewrite Ha, elem_of_app. right. by apply list_elem_of_fmap_2.
  - right. rewrite Hq. destruct (decide (fresh_for (failedOf st) s)) as [Hfresh|Hold].
    + left. rewrite elem_of_app. right. by apply list_elem_of_filter.
    + right. apply dec_stable in Hold.
      apply list_elem_of_fmap in Hold as (q & Heq & Hin).
      exists q. rewrite elem_of_app. eauto.
Qed.
End SyncFacts.

(** *** The session tracker *)

Section TrackerFacts.
Variable hostname : string → option string.
Implicit Types (w : World) (now : Z) (tab : Tab.t).

Lemma endCurrentSession_none now w :
  currentOf w = None → endCurrentSession now w = (tt, w).
Proof.
  unfold endCurrentSession. run_world w. by intros ->.
Qed.

Lemma endCurrentSession_current now w :
  currentOf (exec (endCurrentSession now) w) = None.
Proof.
  unfold endCurrentSession. run_world w.
  destruct current as [c|]; simpl; [|done].
  unfold savePendingSessions, getTracker, onStorage. run_state. done.
Qed.

Lemma endCurrentSession_pending now w :
  pendingOf (exec (endCurrentSession now) w) = pendingOf w ++ closing now (currentOf w).
Proof.
  unfold endCurrentSession. run_world w.
  destruct current as [c|]; simpl; [|by rewrite app_nil_r].
  unfold savePendingSessions, getTracker, onStorage. run_state.
  case_bool_decide; case_decide; simpl in *; try lia; [done|by rewrite app_nil_r].
Qed.

Lemma startSession_pending now now' tab w :
  pendingOf (exec (startSession hostname now now' tab) w)
  = pendingOf (exec (endCurrentSession now) w).
Proof.
  unfold startSession. run_state. unfold getTracker, modifyTracker. simpl.
  destruct (Config.idleDetectionEnabled _ && _); [done|].
  by destruct (negb _).
Qed.

Lemma updateCurrentSession_pending now now' tab w :
  pendingOf (exec (updateCurrentSession hostname now now' tab) w)
  = pendingOf w
  ∨ pendingOf (exec (updateCurrentSession hostname now now' tab) w)
    = pendingOf (exec (endCurrentSession now) w).
Proof.
  unfold updateCurrentSession. run_state.
  destruct (currentOf w) as [c|] eqn:Hc.
  - case_bool_decide.
    + right.
      change (pendingOf (exec (startSession hostname now now' tab)
                           (exec (endCurrentSession now) w)) = pendingOf (exec (endCurrentSession now) w)).
      rewrite startSession_pending, endCurrentSession_pending.
      by rewrite endCurrentSession_current, app_nil_r.
    + left. destruct (Tab.title tab) as [title|]; [|done].
      unfold when, modifyTracker. by destruct (truthy title && _).
  - right. apply startSession_pending.
Qed.

Lemma closing_closed now current : Forall is_closed (closing now current).
Proof.
  destruct current as [c|]; simpl; [|constructor].
  case_decide; repeat constructor. done.
Qed.

Lemma call_pending_closed c w :
  Forall is_closed (pendingOf w) →
  Forall is_closed (pendingOf (exec (call hostname c) w)).
Proof.
  intros Hw.
  assert (Forall is_closed (pendingOf (exec (endCurrentSession
            match c with CallStart n _ _ | CallEnd n | CallUpdate n _ _ => n end) w))) as He.
  { rewrite endCurrentSession_pending. apply Forall_app. split; [done|apply closing_closed]. }
  destruct c as [now now' tab|now|now now' tab]; simpl.
  - by rewrite startSession_pending.
  - done.
  - by destruct (updateCurrentSession_pending now now' tab w) as [-> | ->].
Qed.

Lemma calls_pending_closed cs w :
  Forall is_closed (pendingOf w) →
  Forall is_closed (pendingOf (exec (calls hostname cs) w)).
Proof.
  revert w. induction cs as [|c cs IH]; intros w Hw; [done|].
  change (exec (calls hostname (c :: cs)) w)
    with (exec (calls hostname cs) (exec (call hostname c) w)).
  by apply IH, call_pending_closed.
Qed.

Lemma openSessions_bound w :
  Forall is_closed (pendingOf w) → (length (openSessions w) ≤ 1)%nat.
Proof.
  intros Hw. unfold openSessions. rewrite filter_app, length_app.
  assert (filter is_open (pendingOf w) = []) as ->.
  { induction Hw as [|s l Hs _ IH]; [done|].
    rewrite filter_cons, IH. destruct (decide (is_open s)) as [Ho|]; [|done].
    by destruct Hs. }
  pose proof (length_filter is_open (option_list (currentOf w))).
  destruct (currentOf w); simpl in *; lia.
Qed.
Lemma endCurrentSession_archive now w :
  archiveOf (storage (exec (endCurrentSession now) w)) = archiveOf (storage w).
Proof.
  unfold endCurrentSession, savePendingSessions. run_world w.
  destruct current as [c|]; simpl; [|done]. by case_bool_decide.
Qed.

Lemma endCurrentSession_failed now w :
  failedOf (storage (exec (endCurrentSession now) w)) = failedOf (storage w).
Proof.
  unfold endCurrentSession, savePendingSessions. run_world w.
  destruct current as [c|]; simpl; [|done]. by case_bool_decide.
Qed.

End TrackerFacts.

Section PerformSyncFacts.
Variable hostname : string → option string.
Implicit Types (w : World) (run : SyncRun).

(** Opening a session when none is open touches neither the pending buffer
    nor the storage. *)
Lemma startSession_idle_frame now now' tab w :
  currentOf w = None →
  pendingOf (exec (startSession hostname now now' tab) w) = pendingOf w
  ∧ storage (exec (startSession hostname now now' tab) w) = storage w.
Proof.
  intros Hc. unfold exec, startSession. run_state.
  rewrite (endCurrentSession_none now w Hc). simpl.
  destruct (Config.idleDetectionEnabled _ && _); [done|].
  by destruct (negb _).
Qed.

(** [performSync] closes the open session, hands the pending buffer to
    [sync], and empties the buffer exactly when [sync] reports success. *)
Lemma performSync_outcome run w :
  let w1 := exec (endCurrentSession (nowClose run)) w in
  let r := SyncManager.sync (syncEnv run) (pendingOf w1)
             (TrackerState.deviceId (tracker w)) (TrackerState.config (tracker w))
             (storage w1) in
  eval (performSync hostname run) w = r.1
  ∧ pendingOf (exec (performSync hostname run) w)
    = (if SyncManager.success r.1 then [] else pendingOf w1)
  ∧ storage (exec (performSync hostname run) w)
    = (if SyncManager.success r.1
       then Storage.set_pendingSessions (Some []) r.2 else r.2).
Proof.
  unfold performSync, endCurrentSession, savePendingSessions. run_world w.
  destruct current as [c|]; simpl; [case_bool_decide; simpl|]; run_state;
    set (r := SyncManager.sync _ _ _ _ _);
    destruct r as [[success ? ? ? ?] st2]; simpl; destruct success; simpl;
    try done;
    destruct run as [[[|tab tabs]|] ? ? ?]; simpl; try done;
    (split; [done|]);
    (destruct (Utils.isTrackableUrl _); [|done]);
    by apply startSession_idle_frame.
Qed.

(** The sibling branch of [sync] that archives without a backend reports
    success, and [performSync] then empties the pending buffer: whenever
    [performSync] reports success the archived sessions leave the buffer. *)
Lemma performSync_success_clears_pending run w :
  SyncManager.success (eval (performSync hostname run) w) = true →
  pendingOf (exec (performSync hostname run) w) = [].
Proof.
  intros Hs. destruct (performSync_outcome run w) as (Hr & Hp & _).
  rewrite Hr in Hs. by rewrite Hp, Hs.
Qed.

(** When the user identity does not validate, [performSync] archives the
    pending buffer and keeps it, whatever it held. *)
Lemma performSync_invalid_user_keeps_pending run w :
  let config := TrackerState.config (tracker w) in
  let sessions := pendingOf (exec (endCurrentSession (nowClose run)) w) in
  let w' := exec (performSync hostname run) w in
  sessions ≠ [] →
  truthy (Config.apiEndpoint config) = true →
  truthy (Config.apiKey config) = true →
  SyncManager.valid
    (SyncManager.validateUser (SyncManager.fetch (syncEnv run))
       (Config.userId config) config) = false →
  pendingOf w' = sessions
  ∧ archiveOf (storage w')
    = archiveOf (storage w)
      ++ (Session.set_archivedAt (Some (SyncManager.nowArchive (syncEnv run))) <$> sessions).
Proof.
  cbv zeta. intros Hne He Hk Hv.
  pose proof (performSync_outcome run w) as Hout. cbv zeta in Hout.
  rewrite (sync_invalid_user _ _ _ _ _ Hne He Hk Hv) in Hout.
  destruct Hout as (_ & Hp & Hst). simpl in Hp, Hst.
  split; [done|]. rewrite Hst, archiveLocally_archive.
  by rewrite endCurrentSession_archive.
Qed.
End PerformSyncFacts.

(** ** The branches of [sync] on examples *)

Lemma sync_no_sessions env deviceId config st :
  SyncManager.sync env [] deviceId config st
  = (SyncManager.mkResult true (Some 0%nat) None None None, st).
Proof. reflexivity. Qed.

Example sync_unconfigured_archives :
  SyncManager.sync (Example.env Example.reachable true 500) [Example.news] None
    (DEFAULT_CONFIG "Linux") Storage.empty
  = (SyncManager.mkResult true (Some 0%nat) (Some 1%nat) None None,
     Storage.set_archive (Some [Example.stamped 500 Example.news]) Storage.empty).
Proof. reflexivity. Qed.

(** A visit of 65 seconds, a switch to another tab, and a sync 35 seconds
    later with the backend reachable: both visits are sent and archived, the
    pending buffer and the failed-sync queue are empty, and the second tab is
    tracked again. *)
Example switching_tabs_then_sync :
  let w := exec (calls Example.hostname
                   [CallStart 100 100 Example.tabNews; CallUpdate 165 165 Example.tabWiki])
             (Example.world [] None) in
  let run := mkSyncRun (Some [Example.tabWiki]) 200
               (Example.env Example.reachable true 200) 201 in
  let w' := exec (performSync Example.hostname run) w in
  eval (performSync Example.hostname run) w
  = SyncManager.mkResult true (Some 2%nat) None None None
  ∧ Session.durationSeconds <$> archiveOf (storage w') = [65; 35]
  ∧ pendingOf w' = []
  ∧ Storage.failedSyncs (storage w') = None
  ∧ Session.startTimestamp <$> currentOf w' = Some 201.
Proof. vm_compute. repeat split; reflexivity. Qed.

(** ** The claims *)

(** C1 (the code departs from the claim).  The claim: across any sequence
    of [performSync] invocations the same session (same start-timestamp, url,
    tab-id) is never appended to the archive twice.  The code: when the user
    identity does not validate, [sync] archives its input and reports a
    failure, so [performSync] keeps the pending buffer, and the next
    [performSync] archives the same session again.  Two runs on a buffer that
    holds one session leave two copies of it in the archive. *)
Theorem C1_validation_failure_archives_twice :
  let first := Example.run Example.notAllowlisted true 500 in
  let second := Example.run Example.notAllowlisted true 900 in
  let w0 := Example.world [Example.news] None in
  let w1 := exec (performSync Example.hostname first) w0 in
  let w2 := exec (performSync Example.hostname second) w1 in
  SyncManager.success (eval (performSync Example.hostname first) w0) = false
  ∧ pendingOf w1 = [Example.news]
  ∧ archiveOf (storage w1) = [Example.stamped 500 Example.news]
  ∧ archiveOf (storage w2)
    = [Example.stamped 500 Example.news; Example.stamped 900 Example.news]
  ∧ copies Example.news (archiveOf (storage w2)) = 2%nat.
Proof. vm_compute. repeat split; reflexivity. Qed.

(** C2, as stated, fails: a session that starts in the same second as an
    entry already in the failed-sync queue is skipped by the merge, and a
    failed [sync] leaves it neither in the archive nor in the queue. *)
Lemma C2_counterexample_colliding_start :
  ¬ failed_sync_keeps_every_session
      (Example.env Example.reachable false 500) [Example.mail] None Example.configured
      (Storage.set_failedSyncs (Some [Example.news]) Storage.empty).
Proof.
  intros H. specialize (H eq_refl Example.mail (list_elem_of_here _ _)).
  revert H. apply (bool_decide_eq_false_1 _). vm_compute. reflexivity.
Qed.

(** C2 (amended).  After a call of [sync] that reports [success: false],
    every session of the input is present in the archive (with its
    archived-at stamp), or is present in the failed-sync queue, or was
    skipped by the merge because the queue already held, and still holds, an
    entry with its start-timestamp. *)
Theorem C2_failed_sync_keeps_or_collides env sessions deviceId config st s :
  SyncManager.success (eval (SyncManager.sync env sessions deviceId config) st) = false →
  s ∈ sessions →
  let st' := exec (SyncManager.sync env sessions deviceId config) st in
  present s (archiveOf st')
  ∨ present s (failedOf st')
  ∨ ∃ q, q ∈ failedOf st ∧ q ∈ failedOf st'
         ∧ Session.startTimestamp q = Session.startTimestamp s.
Proof.
  intros Hfail Hs st'.
  destruct (sync_failure_membership env sessions deviceId config st s Hfail Hs)
    as [Ha|[Hq|Hc]].
  - left. by eapply present_stamped.
  - right; left. by apply present_elem.
  - right; right. exact Hc.
Qed.

Lemma C2_witness_offline :
  let env := Example.env Example.reachable false 500 in
  let st' := exec (SyncManager.sync env [Example.news; Example.wiki] None Example.configured)
               Storage.empty in
  present Example.wiki (archiveOf st')
  ∨ present Example.wiki (failedOf st')
  ∨ ∃ q, q ∈ failedOf Storage.empty ∧ q ∈ failedOf st'
         ∧ Session.startTimestamp q = Session.startTimestamp Example.wiki.
Proof.
  apply (C2_failed_sync_keeps_or_collides
           (Example.env Example.reachable false 500)
           [Example.news; Example.wiki] None Example.configured Storage.empty Example.wiki).
  - vm_compute. reflexivity.
  - apply list_elem_of_further, list_elem_of_here.
Defined.

(** C3, as stated, fails: the merge compares a batch with the entries
    already queued, not with itself, so a batch that holds two sessions with
    one start-timestamp puts both in the queue. *)
Lemma C3_counterexample_repeated_start_in_batch :
  ¬ queue_always_distinct [Example.news; Example.mail] Storage.empty.
Proof.
  intros H. specialize (H NoDup_nil_2).
  revert H. apply (bool_decide_eq_false_1 _). vm_compute. reflexivity.
Qed.

(** C3 (amended).  After any sequence of [queueFailedSync] calls whose
    batches each hold pairwise distinct start-timestamps, overlapping batches
    included, the failed-sync queue holds no two entries with the same
    start-timestamp, provided it held none before; and each call appends, in
    order, exactly the sessions of its batch whose start-timestamp is not
    already in the queue. *)
Theorem C3_queue_distinct_for_distinct_batches
    (batches : list (list Session.t)) (st : Storage.t) :
  distinct_starts (failedOf st) →
  Forall distinct_starts batches →
  distinct_starts
    (failedOf (exec (for_each SyncManager.queueFailedSync batches) st))
  ∧ ∀ sessions st0,
      failedOf (exec (SyncManager.queueFailedSync sessions) st0)
      = failedOf st0 ++ filter (fresh_for (failedOf st0)) sessions.
Proof.
  intros Hst Hbatches. split; [|apply queueFailedSync_failed].
  revert st Hst. induction Hbatches as [|sessions batches Hs _ IH]; intros st Hst; [done|].
  change (exec (for_each SyncManager.queueFailedSync (sessions :: batches)) st)
    with (exec (for_each SyncManager.queueFailedSync batches)
            (exec (SyncManager.queueFailedSync sessions) st)).
  by apply IH, queueFailedSync_distinct.
Qed.

Lemma C3_witness_overlapping_batches :
  distinct_starts
    (failedOf (exec (for_each SyncManager.queueFailedSync
                       [[Example.news; Example.wiki]; [Example.mail; Example.wiki]])
                 Storage.empty)).
Proof.
  apply (C3_queue_distinct_for_distinct_batches
           [[Example.news; Example.wiki]; [Example.mail; Example.wiki]] Storage.empty).
  - apply (bool_decide_unpack _). vm_compute. exact I.
  - apply (bool_decide_unpack _). vm_compute. exact I.
Defined.

(** C4, as stated, fails: when [performSync] is retried while still
    offline, the sessions are already in the failed-sync queue, the merge
    skips them, and the queue does not grow, although the result again says
    [queued: N]. *)
Lemma C4_counterexample_offline_retry :
  ¬ offline_sync_queues_all Example.hostname
      (Example.run Example.reachable false 900)
      (exec (performSync Example.hostname (Example.run Example.reachable false 500))
         (Example.world [Example.news; Example.wiki] None)).
Proof.
  intros H.
  assert (offline_scenario (Example.run Example.reachable false 900)
            (exec (performSync Example.hostname (Example.run Example.reachable false 500))
               (Example.world [Example.news; Example.wiki] None))) as Hsc.
  { repeat split; try (vm_compute; reflexivity). vm_compute. discriminate. }
  destruct (H Hsc) as (_ & _ & Hlen). vm_compute in Hlen. discriminate.
Qed.

(** C4 (amended).  In the offline scenario [performSync] returns
    [{success:false, error:'offline', queued: N}] with N the number of
    sessions handed to [sync]; the pending buffer is left as it was handed
    over, in memory and in storage; and the failed-sync queue grows by the
    sessions whose start-timestamp it does not hold yet, which is by exactly
    N entries when it holds none of them. *)
Theorem C4_offline_sync_queues_new_sessions hostname run w :
  offline_scenario run w →
  let w1 := exec (endCurrentSession (nowClose run)) w in
  let sessions := pendingOf w1 in
  let w' := exec (performSync hostname run) w in
  eval (performSync hostname run) w
  = SyncManager.mkResult false None None (Some (length sessions)) (Some "offline"%string)
  ∧ pendingOf w' = sessions
  ∧ Storage.pendingSessions (storage w') = Storage.pendingSessions (storage w1)
  ∧ failedOf (storage w')
    = failedOf (storage w) ++ filter (fresh_for (failedOf (storage w))) sessions
  ∧ (Forall (fresh_for (failedOf (storage w))) sessions →
     length (failedOf (storage w'))
     = (length (failedOf (storage w)) + length sessions)%nat).
Proof.
  intros (Hne & He & Hk & Hv & Hoff). cbv zeta.
  pose proof (performSync_outcome hostname run w) as Hout. cbv zeta in Hout.
  rewrite (sync_offline _ _ _ _ _ Hne He Hk Hv Hoff) in Hout.
  destruct Hout as (Hr & Hp & Hst). simpl in Hr, Hp, Hst.
  set (w1 := exec (endCurrentSession (nowClose run)) w) in *.
  set (w' := exec (performSync hostname run) w) in *.
  assert (failedOf (storage w')
          = failedOf (storage w)
            ++ filter (fresh_for (failedOf (storage w))) (pendingOf w1)) as Hq.
  { rewrite Hst, queueFailedSync_failed. unfold w1.
    by rewrite endCurrentSession_failed. }
  repeat split; try done.
  - by rewrite Hst.
  - intros Hfresh. rewrite Hq, length_app. by rewrite filter_Forall_id.
Qed.

Lemma C4_witness_first_offline_attempt :
  let run := Example.run Example.reachable false 500 in
  let w := Example.world [Example.news; Example.wiki] None in
  let w' := exec (performSync Example.hostname run) w in
  eval (performSync Example.hostname run) w
  = SyncManager.mkResult false None None (Some 2%nat) (Some "offline"%string)
  ∧ pendingOf w' = [Example.news; Example.wiki]
  ∧ failedOf (storage w') = [Example.news; Example.wiki].
Proof.
  destruct (C4_offline_sync_queues_new_sessions Example.hostname
              (Example.run Example.reachable false 500)
              (Example.world [Example.news; Example.wiki] None))
    as (Hr & Hp & _ & Hq & _).
  - repeat split; try (vm_compute; reflexivity). vm_compute. discriminate.
  - split; [exact Hr|]. split; [exact Hp|]. rewrite Hq. vm_compute. reflexivity.
Defined.

(** C5, as stated, fails at the cutoff itself: an entry archived in the
    very second of the cutoff is not older than the cutoff, and it is
    removed. *)
Lemma C5_counterexample_archived_at_cutoff :
  ¬ prune_removes_iff_both_older 3000000 30
      (Storage.set_archive (Some [Example.aged]) Storage.empty) Example.aged.
Proof.
  intros H. destruct (H (list_elem_of_here _ _)) as [Hremoved _].
  destruct Hremoved as [(x & Hx & Hlt) _].
  - vm_compute. apply not_elem_of_nil.
  - injection Hx as <-. vm_compute in Hlt. discriminate.
Qed.

(** C5 (amended).  [pruneArchive(retentionDays)] removes an archive entry
    if and only if both its archivedAt and its startTimestamp are at or
    before the cutoff [now − retentionDays*86400]; every entry for which
    either timestamp is more recent than the cutoff is retained, and nothing
    is added. *)
Theorem C5_pruneArchive_removes_at_or_before_cutoff
    (now retentionDays : Z) (st : Storage.t) (e : Session.t) (archivedAt : Z) :
  e ∈ archiveOf st →
  Session.archivedAt e = Some archivedAt →
  let cutoff := now - retentionDays * 86400 in
  let st' := exec (SyncManager.pruneArchive now (Some retentionDays)) st in
  (e ∉ archiveOf st' ↔ archivedAt ≤ cutoff ∧ Session.startTimestamp e ≤ cutoff)
  ∧ (cutoff < archivedAt ∨ cutoff < Session.startTimestamp e → e ∈ archiveOf st')
  ∧ (∀ x, x ∈ archiveOf st' → x ∈ archiveOf st).
Proof.
  intros He Ha cutoff st'.
  assert (∀ x, x ∈ archiveOf st' ↔ SyncManager.retained cutoff x ∧ x ∈ archiveOf st) as Hin.
  { intros x. unfold st'. rewrite pruneArchive_archive, list_elem_of_filter.
    unfold SyncManager.cutoffTimestamp, cutoff; simpl.
    by replace (now - retentionDays * 24 * 60 * 60) with (now - retentionDays * 86400) by lia. }
  assert (SyncManager.retained cutoff e
          ↔ cutoff < archivedAt ∨ cutoff < Session.startTimestamp e) as Hret.
  { unfold SyncManager.retained. rewrite Ha. simpl. lia. }
  split; [split|split].
  - intros Hout.
    destruct (decide (cutoff < archivedAt ∨ cutoff < Session.startTimestamp e))
      as [Hnew|Hold]; [|lia].
    exfalso. apply Hout, Hin. split; [|done]. by apply Hret.
  - intros [H1 H2] [Hr _]%Hin. apply Hret in Hr. lia.
  - intros Hnew. apply Hin. split; [|done]. by apply Hret.
  - intros x Hx. by apply Hin in Hx as [_ Hx].
Qed.

Lemma C5_witness_late_ingestion :
  let st := Storage.set_archive (Some [Example.aged; Example.late]) Storage.empty in
  Example.late ∈ archiveOf (exec (SyncManager.pruneArchive 3000000 (Some 30)) st).
Proof.
  apply (C5_pruneArchive_removes_at_or_before_cutoff 3000000 30
           (Storage.set_archive (Some [Example.aged; Example.late]) Storage.empty)
           Example.late 2999000).
  - apply list_elem_of_further, list_elem_of_here.
  - reflexivity.
  - left. vm_compute. reflexivity.
Defined.

(** C6.  For every sequence of [startSession] / [endCurrentSession] /
    [updateCurrentSession] calls, started with a pending buffer of closed
    sessions, at most one session of the tracker is open afterwards (the
    pending buffer only ever receives closed copies, so the one open session
    is the content of the current-session slot); and [endCurrentSession] with
    no open session returns with the world unchanged. *)
Theorem C6_at_most_one_open_session
    (hostname : string → option string) (cs : list Call) (w : World) :
  Forall is_closed (pendingOf w) →
  (length (openSessions (exec (calls hostname cs) w)) ≤ 1)%nat
  ∧ Forall is_closed (pendingOf (exec (calls hostname cs) w))
  ∧ ∀ now w0, currentOf w0 = None → endCurrentSession now w0 = (tt, w0).
Proof.
  intros Hw. pose proof (calls_pending_closed hostname cs w Hw) as Hclosed.
  split; [by apply openSessions_bound|]. split; [done|].
  intros now w0. apply endCurrentSession_none.
Qed.

Lemma C6_witness_switching_tabs :
  let cs := [CallStart 100 100 Example.tabNews; CallUpdate 165 165 Example.tabWiki;
             CallEnd 200; CallEnd 230; CallStart 240 240 Example.tabAbout] in
  (length (openSessions (exec (calls Example.hostname cs) (Example.world [] None))) ≤ 1)%nat.
Proof.
  apply (C6_at_most_one_open_session Example.hostname
           [CallStart 100 100 Example.tabNews; CallUpdate 165 165 Example.tabWiki;
            CallEnd 200; CallEnd 230; CallStart 240 240 Example.tabAbout]
           (Example.world [] None)).
  simpl. constructor.
Defined.

(** C7.  When a session is open, [endCurrentSession] closes a copy of it
    with end-timestamp = now and duration = now − start, appends that copy to
    the pending buffer (and persists the buffer) if and only if the duration
    is at least 1 second, and clears the current-session slot in both cases. *)
Theorem C7_endCurrentSession_closes (now : Z) (w : World) (session : Session.t) :
  currentOf w = Some session →
  let closed := closedAt now session in
  let w' := exec (endCurrentSession now) w in
  Session.endTimestamp closed = Some now
  ∧ Session.durationSeconds closed = now - Session.startTimestamp session
  ∧ currentOf w' = None
  ∧ (1 ≤ now - Session.startTimestamp session →
     pendingOf w' = pendingOf w ++ [closed]
     ∧ Storage.pendingSessions (storage w') = Some (pendingOf w ++ [closed]))
  ∧ (now - Session.startTimestamp session < 1 →
     pendingOf w' = pendingOf w ∧ storage w' = storage w).
Proof.
  intros Hc. cbv zeta. split; [done|]. split; [done|].
  split; [apply endCurrentSession_current|].
  unfold endCurrentSession, savePendingSessions. run_world w. simpl in Hc. subst.
  simpl. split; intros Hd.
  - by rewrite bool_decide_eq_true_2.
  - by rewrite bool_decide_eq_false_2 by lia.
Qed.

Lemma C7_witness_one_minute_visit :
  let w' := exec (endCurrentSession 165) (Example.world [] (Some Example.reading)) in
  currentOf w' = None ∧ pendingOf w' = [Example.news].
Proof.
  destruct (C7_endCurrentSession_closes 165 (Example.world [] (Some Example.reading))
              Example.reading eq_refl) as (_ & _ & Hc & Hlong & _).
  split; [exact Hc|]. destruct Hlong as [Hp _]; [vm_compute; discriminate|].
  exact Hp.
Defined.




(** C10.  [clearData] empties the pending buffer in memory and in storage,
    removes the archive and the failed-sync queue from storage, replies
    [{success:true}], and leaves the rest of the world as it was: the open
    session, the device id, the configuration and the idle state of the
    tracker, and the stored device id and configuration. *)
Theorem C10_clearData_frame (w : World) :
  let w' := exec clearData w in
  eval clearData w = mkAck true
  ∧ tracker w' = TrackerState.set_pendingSessions [] (tracker w)
  ∧ storage w'
    = Storage.mk (Storage.deviceId (storage w)) (Storage.config (storage w))
        (Some []) None None
  ∧ currentOf w' = currentOf w
  ∧ TrackerState.deviceId (tracker w') = TrackerState.deviceId (tracker w)
  ∧ TrackerState.config (tracker w') = TrackerState.config (tracker w)
  ∧ TrackerState.isIdle (tracker w') = TrackerState.isIdle (tracker w)
  ∧ TrackerState.idleThresholdSeconds (tracker w')
    = TrackerState.idleThresholdSeconds (tracker w)
  ∧ TrackerState.initialized (tracker w') = TrackerState.initialized (tracker w).
Proof.
  cbv zeta. unfold clearData, savePendingSessions. run_world w.
  repeat split.
Qed.
